(** * squigglepy.distributions: descriptors, validation and credible-interval
      inference

    A shallow embedding of [squigglepy/distributions.py].

    - A Python [float] is an IEEE-754 binary64 number: Rocq's primitive
      [float].  The numeric parameters the constructors compute with
      ([x], [y], [mean], [sd], [credibility], [lclip], [rclip], [t]) are
      documented as [float] or [None]; they are [option float] here.  An
      integer literal that is an operand of a float operation ([x > 0],
      [/ 2], [/ 100]) is the float of the same value there; the literal
      [0] that is assigned to [self.mean] is stored as the int it is.
    - Parameters that the code only inspects by type or stores ([p] of
      [bernoulli], [items] of [discrete], [n] and [p] of [binomial]) are
      dynamic values, [pyval].
    - [raise ValueError(msg)] is [Raise (ValueError msg)] in an error monad.
    - [scipy.stats.norm.ppf] and [numpy.log] are external: they are the two
      operations of the class [Primitives]. *)

From Stdlib Require Import ZArith Floats Uint63 String List Bool Lia.
Import ListNotations.

Local Open Scope string_scope.
#[local] Set Warnings "-inexact-float".

(** ** Exceptions and the error monad *)

Inductive exn : Type :=
| ValueError (msg : string)
| TypeError (msg : string).

Inductive result (A : Type) : Type :=
| Ok (a : A)
| Raise (e : exn).

Arguments Ok {A} a.
Arguments Raise {A} e.

Definition bind {A B : Type} (r : result A) (k : A -> result B) : result B :=
  match r with
  | Ok a => k a
  | Raise e => Raise e
  end.

Declare Scope py_scope.
Delimit Scope py_scope with py.
Notation "'let*' v ':=' r 'in' k" := (bind r (fun v => k))
  (at level 10, v name, r at level 100, k at level 200) : py_scope.

(** ** Python values *)

#[local] Set Warnings "-register-all".

Inductive pyval : Type :=
| PNone
| PBool (b : bool)
| PInt (z : Z)
| PFloat (f : float)
| PStr (s : string)
| PList (l : list pyval)
| PTuple (l : list pyval)
| PDict (kvs : list (pyval * pyval)).

(** [isinstance(v, float)], [isinstance(v, int)] ([bool] is a subclass of
    [int]), [isinstance(v, dict)], [isinstance(v, list)]. *)
Definition isinstance_float (v : pyval) : bool :=
  match v with PFloat _ => true | _ => false end.

Definition isinstance_int (v : pyval) : bool :=
  match v with PInt _ | PBool _ => true | _ => false end.

Definition isinstance_dict (v : pyval) : bool :=
  match v with PDict _ => true | _ => false end.

Definition isinstance_list (v : pyval) : bool :=
  match v with PList _ => true | _ => false end.

(** [v is None] for an optional float, and the stored attribute. *)
Definition is_None {A : Type} (o : option A) : bool :=
  match o with None => true | Some _ => false end.

Definition attr (o : option float) : pyval :=
  match o with None => PNone | Some f => PFloat f end.

(** [v is None] for a stored attribute. *)
Definition is_PNone (v : pyval) : bool :=
  match v with PNone => true | _ => false end.

(** The name of the type of a value, as error messages print it. *)
Definition type_name (v : pyval) : string :=
  match v with
  | PNone => "NoneType"
  | PBool _ => "bool"
  | PInt _ => "int"
  | PFloat _ => "float"
  | PStr _ => "str"
  | PList _ => "list"
  | PTuple _ => "tuple"
  | PDict _ => "dict"
  end.

(** ** Comparisons *)

Module Cmp.

(** [a > b] and [a <= b] on floats: IEEE comparisons, false on NaN. *)
Definition gt (a b : float) : bool := PrimFloat.ltb b a.
Definition le (a b : float) : bool := PrimFloat.leb a b.
Definition lt (a b : float) : bool := PrimFloat.ltb a b.

(** The float with the value of a small integer (exact below 2^53). *)
Definition float_of_int (z : Z) : float :=
  if (z <? 0)%Z
  then PrimFloat.opp (PrimFloat.of_uint63 (Uint63.of_Z (- z)))
  else PrimFloat.of_uint63 (Uint63.of_Z z).

(** Exact comparison of a float with an integer, as CPython's
    [float_richcompare] decides it when the integer does not fit a
    double's mantissa; [None] on NaN. *)
Definition exact_compare (f : float) (z : Z) : option comparison :=
  match Prim2SF f with
  | S754_nan => None
  | S754_infinity s => Some (if s then Lt else Gt)
  | S754_zero _ => Some (0 ?= z)%Z
  | S754_finite s m e =>
      let v := if s then Z.neg m else Z.pos m in
      Some (if (0 <=? e)%Z then (v * 2 ^ e ?= z)%Z
            else (v ?= z * 2 ^ (- e))%Z)
  end.

Definition float_lt_int (f : float) (z : Z) : bool :=
  if (Z.abs z <? 2 ^ 48)%Z then lt f (float_of_int z)
  else match exact_compare f z with Some Lt => true | _ => false end.

Definition float_gt_int (f : float) (z : Z) : bool :=
  if (Z.abs z <? 2 ^ 48)%Z then gt f (float_of_int z)
  else match exact_compare f z with Some Gt => true | _ => false end.

(** [v < k] and [v > k] for a dynamic value [v] and an integer literal
    [k]: defined on numbers, [TypeError] otherwise. *)
Definition py_lt_int (v : pyval) (k : Z) : result bool :=
  match v with
  | PFloat f => Ok (float_lt_int f k)
  | PInt z => Ok (z <? k)%Z
  | PBool b => Ok (Z.b2z b <? k)%Z
  | _ => Raise (TypeError ("'<' not supported between instances of '"
                           ++ type_name v ++ "' and 'int'"))
  end.

Definition py_gt_int (v : pyval) (k : Z) : result bool :=
  match v with
  | PFloat f => Ok (float_gt_int f k)
  | PInt z => Ok (k <? z)%Z
  | PBool b => Ok (k <? Z.b2z b)%Z
  | _ => Raise (TypeError ("'>' not supported between instances of '"
                           ++ type_name v ++ "' and 'int'"))
  end.

End Cmp.

(** [x is not None and y is not None and x > y] *)
Definition high_below_low (x y : option float) : bool :=
  match x, y with
  | Some x, Some y => Cmp.gt x y
  | _, _ => false
  end.

(** [x is not None and x <= 0] *)
Definition not_positive (x : option float) : bool :=
  match x with
  | Some x => Cmp.le x 0
  | None => false
  end.

(** ** The external math primitives *)

Class Primitives : Type := {
  (** [scipy.stats.norm.ppf]: the standard-normal quantile function. *)
  ppf : float -> float;
  (** [numpy.log]: the natural logarithm. *)
  log : float -> float
}.

(** ** The descriptor object

    [BaseDistribution.__init__] gives every descriptor the same attributes,
    all [None], and the type name ['BaseDistribution']; a subclass
    constructor then assigns its own.  [Self.x d] reads [d.x], and
    [Self.set_x v d] is the object after [d.x = v]. *)

Module Self.

Record obj : Type := Build {
  x : pyval; y : pyval; n : pyval; p : pyval; t : pyval;
  a : pyval; b : pyval; shape : pyval; scale : pyval;
  credibility : pyval; mean : pyval; sd : pyval;
  left : pyval; mode : pyval; right : pyval;
  lclip : pyval; rclip : pyval; lam : pyval;
  items : pyval; dists : pyval; weights : pyval;
  type : string
}.

Definition set_x (v : pyval) (d : obj) : obj :=
  Build v (y d) (n d) (p d) (t d) (a d) (b d) (shape d) (scale d)
    (credibility d) (mean d) (sd d) (left d) (mode d) (right d) (lclip d)
    (rclip d) (lam d) (items d) (dists d) (weights d) (type d).

Definition set_y (v : pyval) (d : obj) : obj :=
  Build (x d) v (n d) (p d) (t d) (a d) (b d) (shape d) (scale d)
    (credibility d) (mean d) (sd d) (left d) (mode d) (right d) (lclip d)
    (rclip d) (lam d) (items d) (dists d) (weights d) (type d).

Definition set_n (v : pyval) (d : obj) : obj :=
  Build (x d) (y d) v (p d) (t d) (a d) (b d) (shape d) (scale d)
    (credibility d) (mean d) (sd d) (left d) (mode d) (right d) (lclip d)
    (rclip d) (lam d) (items d) (dists d) (weights d) (type d).

Definition set_p (v : pyval) (d : obj) : obj :=
  Build (x d) (y d) (n d) v (t d) (a d) (b d) (shape d) (scale d)
    (credibility d) (mean d) (sd d) (left d) (mode d) (right d) (lclip d)
    (rclip d) (lam d) (items d) (dists d) (weights d) (type d).

Definition set_t (v : pyval) (d : obj) : obj :=
  Build (x d) (y d) (n d) (p d) v (a d) (b d) (shape d) (scale d)
    (credibility d) (mean d) (sd d) (left d) (mode d) (right d) (lclip d)
    (rclip d) (lam d) (items d) (dists d) (weights d) (type d).

Definition set_credibility (v : pyval) (d : obj) : obj :=
  Build (x d) (y d) (n d) (p d) (t d) (a d) (b d) (shape d) (scale d) v
    (mean d) (sd d) (left d) (mode d) (right d) (lclip d) (rclip d)
    (lam d) (items d) (dists d) (weights d) (type d).

Definition set_mean (v : pyval) (d : obj) : obj :=
  Build (x d) (y d) (n d) (p d) (t d) (a d) (b d) (shape d) (scale d)
    (credibility d) v (sd d) (left d) (mode d) (right d) (lclip d)
    (rclip d) (lam d) (items d) (dists d) (weights d) (type d).

Definition set_sd (v : pyval) (d : obj) : obj :=
  Build (x d) (y d) (n d) (p d) (t d) (a d) (b d) (shape d) (scale d)
    (credibility d) (mean d) v (left d) (mode d) (right d) (lclip d)
    (rclip d) (lam d) (items d) (dists d) (weights d) (type d).

Definition set_lclip (v : pyval) (d : obj) : obj :=
  Build (x d) (y d) (n d) (p d) (t d) (a d) (b d) (shape d) (scale d)
    (credibility d) (mean d) (sd d) (left d) (mode d) (right d) v
    (rclip d) (lam d) (items d) (dists d) (weights d) (type d).

Definition set_rclip (v : pyval) (d : obj) : obj :=
  Build (x d) (y d) (n d) (p d) (t d) (a d) (b d) (shape d) (scale d)
    (credibility d) (mean d) (sd d) (left d) (mode d) (right d) (lclip d)
    v (lam d) (items d) (dists d) (weights d) (type d).

Definition set_items (v : pyval) (d : obj) : obj :=
  Build (x d) (y d) (n d) (p d) (t d) (a d) (b d) (shape d) (scale d)
    (credibility d) (mean d) (sd d) (left d) (mode d) (right d) (lclip d)
    (rclip d) (lam d) v (dists d) (weights d) (type d).

Definition set_type (v : string) (d : obj) : obj :=
  Build (x d) (y d) (n d) (p d) (t d) (a d) (b d) (shape d) (scale d)
    (credibility d) (mean d) (sd d) (left d) (mode d) (right d) (lclip d)
    (rclip d) (lam d) (items d) (dists d) (weights d) v.

End Self.

Definition Distribution : Type := Self.obj.

Local Open Scope float_scope.
Local Open Scope py_scope.

Section Distributions.

Context {prim : Primitives}.

(** [BaseDistribution.__init__] *)
Definition BaseDistribution : Distribution :=
  Self.Build PNone PNone PNone PNone PNone PNone PNone PNone PNone
    PNone PNone PNone PNone PNone PNone PNone PNone PNone
    PNone PNone PNone "BaseDistribution".

(** *** norm *)

(** [NormalDistribution.__init__].  The attributes are assigned first;
    the guards read [self.x], [self.y] and [self.sd], which are the
    arguments; [self.mean] is tested on the object, after the assignment
    [self.mean = 0] of the int 0. *)
Definition NormalDistribution (x y mean sd : option float)
    (credibility : float) (lclip rclip : option float)
    : result Distribution :=
  let self := BaseDistribution in
  let self := Self.set_x (attr x) self in
  let self := Self.set_y (attr y) self in
  let self := Self.set_credibility (PFloat credibility) self in
  let self := Self.set_mean (attr mean) self in
  let self := Self.set_sd (attr sd) self in
  let self := Self.set_lclip (attr lclip) self in
  let self := Self.set_rclip (attr rclip) self in
  let self := Self.set_type "norm" self in
  if high_below_low x y
  then Raise (ValueError "`high value` cannot be lower than `low value`")
  else
  if (is_None x || is_None y) && is_None sd
  then Raise (ValueError "must define either x/y or mean/sd")
  else if (negb (is_None x) || negb (is_None y)) && negb (is_None sd)
  then Raise (ValueError
                "must define either x/y or mean/sd -- cannot define both")
  else
  let self :=
    if negb (is_None sd) && is_None mean
    then Self.set_mean (PInt 0) self else self in
  if is_PNone (Self.mean self) && is_PNone (Self.sd self)
  then
    match x, y with
    | Some x, Some y =>
        let mean := (x + y) / 2 in
        let self := Self.set_mean (PFloat mean) self in
        let cdf_value := 0.5 + 0.5 * (credibility / 100) in
        let normed_sigma := ppf cdf_value in
        Ok (Self.set_sd (PFloat ((y - mean) / normed_sigma)) self)
    | _, _ =>
        Raise (TypeError ("unsupported operand type(s) for +: '"
                          ++ type_name (attr x) ++ "' and '"
                          ++ type_name (attr y) ++ "'"))
    end
  else Ok self.

(** [norm]: the factory's own argument order, [credibility] third. *)
Definition norm (x y : option float) (credibility : float)
    (mean sd lclip rclip : option float) : result Distribution :=
  NormalDistribution x y mean sd credibility lclip rclip.

(** *** lognorm *)

(** [LognormalDistribution.__init__] *)
Definition LognormalDistribution (x y mean sd : option float)
    (credibility : float) (lclip rclip : option float)
    : result Distribution :=
  let self := BaseDistribution in
  let self := Self.set_x (attr x) self in
  let self := Self.set_y (attr y) self in
  let self := Self.set_credibility (PFloat credibility) self in
  let self := Self.set_mean (attr mean) self in
  let self := Self.set_sd (attr sd) self in
  let self := Self.set_lclip (attr lclip) self in
  let self := Self.set_rclip (attr rclip) self in
  let self := Self.set_type "lognorm" self in
  if high_below_low x y
  then Raise (ValueError "`high value` cannot be lower than `low value`")
  else
  if not_positive x
  then Raise (ValueError "lognormal distribution must have values >= 0.")
  else
  if (is_None x || is_None y) && is_None sd
  then Raise (ValueError "must define either x/y or mean/sd")
  else if (negb (is_None x) || negb (is_None y)) && negb (is_None sd)
  then Raise (ValueError
                "must define either x/y or mean/sd -- cannot define both")
  else
  let self :=
    if negb (is_None sd) && is_None mean
    then Self.set_mean (PInt 0) self else self in
  if is_PNone (Self.mean self) && is_PNone (Self.sd self)
  then
    match x, y with
    | Some x, Some y =>
        let mean := (log x + log y) / 2 in
        let self := Self.set_mean (PFloat mean) self in
        let cdf_value := 0.5 + 0.5 * (credibility / 100) in
        let normed_sigma := ppf cdf_value in
        Ok (Self.set_sd (PFloat ((log y - mean) / normed_sigma)) self)
    | _, _ =>
        Raise (TypeError
          "loop of ufunc does not support argument 0 of type NoneType which has no callable log method")
    end
  else Ok self.

Definition lognorm (x y : option float) (credibility : float)
    (mean sd lclip rclip : option float) : result Distribution :=
  LognormalDistribution x y mean sd credibility lclip rclip.

(** *** to *)

Definition to (x y : float) (credibility : float)
    (lclip rclip : option float) : result Distribution :=
  if Cmp.gt x 0
  then lognorm (Some x) (Some y) credibility None None lclip rclip
  else norm (Some x) (Some y) credibility None None lclip rclip.

(** *** binomial *)

Definition BinomialDistribution (n p : pyval) : result Distribution :=
  let self := BaseDistribution in
  let self := Self.set_n n self in
  let self := Self.set_p p self in
  Ok (Self.set_type "binomial" self).

Definition binomial (n p : pyval) : result Distribution :=
  BinomialDistribution n p.

(** *** bernoulli *)

(** [not isinstance(p, float) or isinstance(p, int)] parses as
    [(not isinstance(p, float)) or isinstance(p, int)]; [or] evaluates
    its right operand only when the left one is false. *)
Definition BernoulliDistribution (p : pyval) : result Distribution :=
  let self := BaseDistribution in
  if negb (isinstance_float p) || isinstance_int p
  then Raise (ValueError "bernoulli p must be a float or int")
  else
  let* below := Cmp.py_lt_int p 0 in
  let* outside := (if below then Ok true else Cmp.py_gt_int p 1) in
  if outside
  then Raise (ValueError "bernoulli p must be 0-1")
  else
  let self := Self.set_p p self in
  Ok (Self.set_type "bernoulli" self).

Definition bernoulli (p : pyval) : result Distribution :=
  BernoulliDistribution p.

(** *** discrete *)

Definition DiscreteDistribution (items : pyval) : result Distribution :=
  let self := BaseDistribution in
  if negb (isinstance_dict items) && negb (isinstance_list items)
  then Raise (ValueError "inputs to discrete must be a dict or list")
  else
  let self := Self.set_items items self in
  Ok (Self.set_type "discrete" self).

Definition discrete (items : pyval) : result Distribution :=
  DiscreteDistribution items.

(** *** tdist and log_tdist *)

Definition TDistribution (x y : option float) (t credibility : float)
    (lclip rclip : option float) : result Distribution :=
  let self := BaseDistribution in
  let self := Self.set_x (attr x) self in
  let self := Self.set_y (attr y) self in
  let self := Self.set_t (PFloat t) self in
  let self := Self.set_credibility (PFloat credibility) self in
  let self := Self.set_lclip (attr lclip) self in
  let self := Self.set_rclip (attr rclip) self in
  let self := Self.set_type "tdist" self in
  if (is_None x || is_None y) && negb (is_None x && is_None y)
  then Raise (ValueError
                "must define either both `x` and `y` or neither.")
  else if high_below_low x y
  then Raise (ValueError "`high value` cannot be lower than `low value`")
  else
  if is_None x
  then Ok (Self.set_credibility PNone self)
  else Ok self.

Definition tdist (x y : option float) (t credibility : float)
    (lclip rclip : option float) : result Distribution :=
  TDistribution x y t credibility lclip rclip.

Definition LogTDistribution (x y : option float) (t credibility : float)
    (lclip rclip : option float) : result Distribution :=
  let self := BaseDistribution in
  let self := Self.set_x (attr x) self in
  let self := Self.set_y (attr y) self in
  let self := Self.set_t (PFloat t) self in
  let self := Self.set_credibility (PFloat credibility) self in
  let self := Self.set_lclip (attr lclip) self in
  let self := Self.set_rclip (attr rclip) self in
  let self := Self.set_type "log_tdist" self in
  if (is_None x || is_None y) && negb (is_None x && is_None y)
  then Raise (ValueError
                "must define either both `x` and `y` or neither.")
  else if high_below_low x y
  then Raise (ValueError "`high value` cannot be lower than `low value`")
  else
  if is_None x
  then Ok (Self.set_credibility PNone self)
  else Ok self.

Definition log_tdist (x y : option float) (t credibility : float)
    (lclip rclip : option float) : result Distribution :=
  LogTDistribution x y t credibility lclip rclip.

End Distributions.

(** The defaults of the keyword arguments [credibility] and [t] are the
    ints 90 and 1.  A call that omits them goes through the same guards
    and the same arithmetic as the call that passes the floats of the same
    value ([90 / 100] and [90.0 / 100] are the same float); these two are
    those floats.  The attribute such a call stores, and the text it
    prints, are the float's ([90.0], [t=1.0]) where the source has the
    int's: no statement below reads either from a default. *)
Definition default_credibility : float := 90.
Definition default_t : float := 1.

(** ** Error kinds

    Every failure of the module is a [ValueError]; the error kinds of the
    design are told apart by the site that raises, that is by the message. *)

Inductive ErrorKind : Type :=
| RangeOrderError
| ParameterConflictError
| DomainError
| ValidationError.

Definition error_kind (e : exn) : option ErrorKind :=
  match e with
  | ValueError msg =>
      if (msg =? "`high value` cannot be lower than `low value`")%string
      then Some RangeOrderError
      else if (msg =? "must define either x/y or mean/sd")%string
      then Some ParameterConflictError
      else if (msg =?
        "must define either x/y or mean/sd -- cannot define both")%string
      then Some ParameterConflictError
      else if (msg =?
        "must define either both `x` and `y` or neither.")%string
      then Some ParameterConflictError
      else if (msg =?
        "lognormal distribution must have values >= 0.")%string
      then Some DomainError
      else if (msg =? "bernoulli p must be 0-1")%string
      then Some DomainError
      else if (msg =? "bernoulli p must be a float or int")%string
      then Some ValidationError
      else if (msg =? "inputs to discrete must be a dict or list")%string
      then Some ValidationError
      else None
  | TypeError _ => None
  end.

(** The kind of error a construction failed with; [None] when it returned
    a descriptor (or failed outside the taxonomy). *)
Definition failure {A : Type} (r : result A) : option ErrorKind :=
  match r with
  | Ok _ => None
  | Raise e => error_kind e
  end.

Definition returns {A : Type} (r : result A) : bool :=
  match r with Ok _ => true | Raise _ => false end.

(** ** Conflicting parameterisations

    The two ways the parameters of [norm] and [lognorm] conflict: an
    interval endpoint together with [sd], or neither a complete interval
    nor [sd]. *)
Definition conflicting (x y sd : option float) : Prop :=
  ((x <> None \/ y <> None) /\ sd <> None)
  \/ ((x = None \/ y = None) /\ sd = None).

(** ** An instance of the primitives for running examples

    The two primitives tabulated at the points the documented examples
    reach ([norm(0, 1)], [lognorm(1, 10)] at the default credibility, and
    the 95% interval), NaN elsewhere. *)
Definition table_primitives : Primitives := {|
  ppf := fun q =>
    if PrimFloat.eqb q (0.5 + 0.5 * (90 / 100))%float
    then 1.6448536269514722%float
    else if PrimFloat.eqb q (0.5 + 0.5 * (95 / 100))%float
    then 1.959963984540054%float
    else PrimFloat.nan;
  log := fun v =>
    if PrimFloat.eqb v 1%float then 0%float
    else if PrimFloat.eqb v 10%float then 2.302585092994046%float
    else PrimFloat.nan
|}.

(** ** Rendering

    The [__str__] methods.  ['{}'.format(v)] and [round(v, 2)] are builtins
    of the language: the text of a value and the rounding of a float are
    the two operations of the class [Builtins]. *)

Class Builtins : Type := {
  (** ['{}'.format(v)] *)
  fmt : pyval -> string;
  (** [round(f, 2)] for a float [f] *)
  round2 : float -> float
}.

(** [f == k] for a float and an integer literal. *)
Definition float_eq_int (f : float) (k : Z) : bool :=
  if (Z.abs k <? 2 ^ 48)%Z then PrimFloat.eqb f (Cmp.float_of_int k)
  else match Cmp.exact_compare f k with Some Eq => true | _ => false end.

(** [v != k] for a stored attribute and an integer literal: values that
    are not numbers differ from every integer. *)
Definition py_ne_int (v : pyval) (k : Z) : bool :=
  match v with
  | PFloat f => negb (float_eq_int f k)
  | PInt z => negb (z =? k)%Z
  | PBool b => negb (Z.b2z b =? k)%Z
  | _ => true
  end.

Section Rendering.

Context {builtins : Builtins}.

(** [round(v, 2)]: a float is rounded, an int is returned as it is, and
    any other value has no [__round__]. *)
Definition py_round2 (v : pyval) : result pyval :=
  match v with
  | PFloat f => Ok (PFloat (round2 f))
  | PInt z => Ok (PInt z)
  | PBool b => Ok (PInt (Z.b2z b))
  | _ => Raise (TypeError ("type " ++ type_name v
                           ++ " doesn't define __round__ method"))
  end.

(** The end of every [__str__] that shows the clips:
    [if self.lclip is not None: out += ', lclip={}'.format(self.lclip)],
    the same for [rclip], then [out += ')']. *)
Definition with_clips (out : string) (self : Distribution) : string :=
  let out :=
    if negb (is_PNone (Self.lclip self))
    then out ++ ", lclip=" ++ fmt (Self.lclip self) else out in
  let out :=
    if negb (is_PNone (Self.rclip self))
    then out ++ ", rclip=" ++ fmt (Self.rclip self) else out in
  out ++ ")".

(** [BaseDistribution.__str__], inherited by [DiscreteDistribution]. *)
Definition BaseDistribution_str (self : Distribution) : string :=
  "<Distribution> " ++ Self.type self.

(** [NormalDistribution.__str__]: the two [round] calls are evaluated
    before the text is formatted. *)
Definition NormalDistribution_str (self : Distribution) : result string :=
  let* m := py_round2 (Self.mean self) in
  let* s := py_round2 (Self.sd self) in
  let out := "<Distribution> " ++ Self.type self
             ++ "(mean=" ++ fmt m ++ ", sd=" ++ fmt s in
  Ok (with_clips out self).

(** [LognormalDistribution.__str__] *)
Definition LognormalDistribution_str (self : Distribution) : result string :=
  let* m := py_round2 (Self.mean self) in
  let* s := py_round2 (Self.sd self) in
  let out := "<Distribution> " ++ Self.type self
             ++ "(mean=" ++ fmt m ++ ", sd=" ++ fmt s in
  Ok (with_clips out self).

(** [TDistribution.__str__] *)
Definition TDistribution_str (self : Distribution) : string :=
  let out :=
    if negb (is_PNone (Self.x self))
    then "<Distribution> " ++ Self.type self
         ++ "(x=" ++ fmt (Self.x self) ++ ", y=" ++ fmt (Self.y self)
         ++ ", t=" ++ fmt (Self.t self)
    else "<Distribution> " ++ Self.type self
         ++ "(t=" ++ fmt (Self.t self) in
  let out :=
    if py_ne_int (Self.credibility self) 90
       && negb (is_PNone (Self.credibility self))
    then out ++ ", credibility=" ++ fmt (Self.credibility self) else out in
  with_clips out self.

(** [LogTDistribution.__str__] *)
Definition LogTDistribution_str (self : Distribution) : string :=
  let out :=
    if negb (is_PNone (Self.x self))
    then "<Distribution> " ++ Self.type self
         ++ "(x=" ++ fmt (Self.x self) ++ ", y=" ++ fmt (Self.y self)
         ++ ", t=" ++ fmt (Self.t self)
    else "<Distribution> " ++ Self.type self
         ++ "(t=" ++ fmt (Self.t self) in
  let out :=
    if py_ne_int (Self.credibility self) 90
       && negb (is_PNone (Self.credibility self))
    then out ++ ", credibility=" ++ fmt (Self.credibility self) else out in
  with_clips out self.

End Rendering.

(** ** An instance of the builtins for running examples

    The text and the rounding of the floats the documented examples reach
    ([norm(0, 1)] prints as [norm(mean=0.5, sd=0.3)]), ["?"] and the
    identity elsewhere. *)
Definition table_builtins : Builtins := {|
  fmt := fun v =>
    match v with
    | PFloat f =>
        if PrimFloat.Leibniz.eqb f 0%float then "0.0"
        else if PrimFloat.Leibniz.eqb f 0.3%float then "0.3"
        else if PrimFloat.Leibniz.eqb f 0.5%float then "0.5"
        else if PrimFloat.Leibniz.eqb f 1%float then "1.0"
        else if PrimFloat.Leibniz.eqb f 2%float then "2.0"
        else if PrimFloat.Leibniz.eqb f 95%float then "95.0"
        else "?"
    | _ => "?"
    end;
  round2 := fun f =>
    if PrimFloat.Leibniz.eqb f (0.5 / 1.6448536269514722)%float
    then 0.3%float else f
|}.

(** [str(d)] for the result of a constructor: a construction that failed
    has nothing to render. *)
Definition rendered {A : Type} (r : result Distribution)
    (str : Distribution -> result A) : result A :=
  bind r str.

(** * Properties *)

(** ** Float comparisons *)

Lemma SFcompare_antisym (f g : spec_float) :
  SFcompare g f = option_map CompOpp (SFcompare f g).
Proof.
  destruct f as [sf|sf| |sf mf ef], g as [sg|sg| |sg mg eg];
    try destruct sf; try destruct sg; try reflexivity.
  all: simpl; rewrite (Z.compare_antisym eg ef);
    destruct (eg ?= ef)%Z; simpl; try reflexivity;
    assert (H := Pos.compare_cont_antisym mf mg Eq); simpl in H;
    change (Pos.compare_cont Eq mg mf)
      with (PosDef.Pos.compare_cont Eq mg mf) in H;
    rewrite <- H; destruct (Pos.compare_cont Eq mf mg); reflexivity.
Qed.

Lemma lt_le_absurd (a b : float) :
  PrimFloat.ltb b a = true -> PrimFloat.leb a b = true -> False.
Proof.
  rewrite FloatAxioms.ltb_spec, FloatAxioms.leb_spec. unfold SFltb, SFleb.
  rewrite (SFcompare_antisym (Prim2SF a) (Prim2SF b)).
  destruct (SFcompare (Prim2SF a) (Prim2SF b)) as [[]|]; simpl; discriminate.
Qed.

Lemma le_not_gt (a b : float) : Cmp.le a b = true -> Cmp.gt a b = false.
Proof.
  unfold Cmp.le, Cmp.gt. intros Hle.
  destruct (PrimFloat.ltb b a) eqn:Hlt; [|reflexivity].
  destruct (lt_le_absurd a b Hlt Hle).
Qed.

Lemma gt_not_le (a b : float) : Cmp.gt a b = true -> Cmp.le a b = false.
Proof.
  unfold Cmp.le, Cmp.gt. intros Hlt.
  destruct (PrimFloat.leb a b) eqn:Hle; [|reflexivity].
  destruct (lt_le_absurd a b Hlt Hle).
Qed.

(** ** Guards *)

Lemma high_below_low_le (x y : float) :
  Cmp.le x y = true -> high_below_low (Some x) (Some y) = false.
Proof. simpl. apply le_not_gt. Qed.

Lemma not_positive_gt (x : float) :
  Cmp.gt x 0 = true -> not_positive (Some x) = false.
Proof. simpl. apply gt_not_le. Qed.

(** Unfold a constructor down to its chain of guards. *)
Ltac run_init :=
  unfold norm, lognorm, tdist, log_tdist, NormalDistribution,
    LognormalDistribution, TDistribution, LogTDistribution.

(** ** Credible-interval inference *)

Section Inference.

Context {prim : Primitives}.

Lemma norm_interval (x y credibility : float) (lclip rclip : option float) :
  high_below_low (Some x) (Some y) = false ->
  exists d,
    norm (Some x) (Some y) credibility None None lclip rclip = Ok d
    /\ Self.mean d = PFloat ((x + y) / 2)
    /\ Self.sd d = PFloat ((y - (x + y) / 2)
                        / ppf (0.5 + 0.5 * (credibility / 100))).
Proof.
  intros Hord. run_init. rewrite Hord. simpl.
  eexists. split; [reflexivity|]. split; reflexivity.
Qed.

Lemma lognorm_interval (x y credibility : float)
    (lclip rclip : option float) :
  high_below_low (Some x) (Some y) = false ->
  not_positive (Some x) = false ->
  exists d,
    lognorm (Some x) (Some y) credibility None None lclip rclip = Ok d
    /\ Self.mean d = PFloat ((log x + log y) / 2)
    /\ Self.sd d =
         PFloat ((log y - (log x + log y) / 2)
                 / ppf (0.5 + 0.5 * (credibility / 100))).
Proof.
  intros Hord Hpos. run_init. rewrite Hord, Hpos. simpl.
  eexists. split; [reflexivity|]. split; reflexivity.
Qed.

(** C1: for every x <= y with mean and sd not supplied, and every
    credibility (in particular every credibility in (0,100), and the
    default 90), norm(x, y, credibility) stores
    mean = (x + y) / 2 and sd = (y - mean) / ppf(0.5 + 0.5 * (credibility / 100)),
    and lognorm(x, y, credibility) with x > 0 stores the log-space
    mean = (ln x + ln y) / 2 and sd = (ln y - mean) / ppf(0.5 + 0.5 * (credibility / 100)). *)
Theorem interval_inference (x y credibility : float)
    (lclip rclip : option float) (Hxy : Cmp.le x y = true) :
  (exists d m,
     norm (Some x) (Some y) credibility None None lclip rclip = Ok d
     /\ m = (x + y) / 2
     /\ Self.mean d = PFloat m
     /\ Self.sd d =
          PFloat ((y - m) / ppf (0.5 + 0.5 * (credibility / 100))))
  /\ (Cmp.gt x 0 = true ->
      exists d m,
        lognorm (Some x) (Some y) credibility None None lclip rclip = Ok d
        /\ m = (log x + log y) / 2
        /\ Self.mean d = PFloat m
        /\ Self.sd d =
             PFloat ((log y - m) / ppf (0.5 + 0.5 * (credibility / 100)))).
Proof.
  pose proof (high_below_low_le x y Hxy) as Hord. split.
  - destruct (norm_interval x y credibility lclip rclip Hord)
      as (d & Hd & Hm & Hs).
    exists d, ((x + y) / 2). auto.
  - intros Hpos. apply not_positive_gt in Hpos.
    destruct (lognorm_interval x y credibility lclip rclip Hord Hpos)
      as (d & Hd & Hm & Hs).
    exists d, ((log x + log y) / 2). auto.
Qed.

(** C10: for every x <= y and every supplied mean m, norm(x=x, y=y, mean=m)
    with sd omitted raises nothing and returns a descriptor with mean = m
    and sd = None, the inference being skipped; the same holds for
    lognorm(x=x, y=y, mean=m) with x > 0. *)
Theorem mean_with_interval_skips_inference (x y m credibility : float)
    (lclip rclip : option float) (Hxy : Cmp.le x y = true) :
  (exists d,
     norm (Some x) (Some y) credibility (Some m) None lclip rclip = Ok d
     /\ Self.mean d = PFloat m /\ Self.sd d = PNone)
  /\ (Cmp.gt x 0 = true ->
      exists d,
        lognorm (Some x) (Some y) credibility (Some m) None lclip rclip
          = Ok d
        /\ Self.mean d = PFloat m /\ Self.sd d = PNone).
Proof.
  pose proof (high_below_low_le x y Hxy) as Hord. split.
  - run_init. rewrite Hord. simpl. eexists. repeat split.
  - intros Hpos. apply not_positive_gt in Hpos.
    run_init. rewrite Hord, Hpos. simpl. eexists. repeat split.
Qed.

End Inference.

(** ** Dispatch and validation order *)

Section Validation.

Context {prim : Primitives}.

Lemma norm_type (x y mean sd : option float) (credibility : float)
    (lclip rclip : option float) (d : Distribution) :
  norm x y credibility mean sd lclip rclip = Ok d -> Self.type d = "norm".
Proof.
  run_init.
  destruct (high_below_low x y); [discriminate|].
  destruct x, y, mean, sd; simpl; intros H; inversion H; reflexivity.
Qed.

Lemma lognorm_type (x y mean sd : option float) (credibility : float)
    (lclip rclip : option float) (d : Distribution) :
  lognorm x y credibility mean sd lclip rclip = Ok d ->
  Self.type d = "lognorm".
Proof.
  run_init.
  destruct (high_below_low x y); [discriminate|].
  destruct (not_positive x); [discriminate|].
  destruct x, y, mean, sd; simpl; intros H; inversion H; reflexivity.
Qed.

(** C2 (amended): to(x, y, credibility, lclip, rclip) is lognorm(x, y,
    credibility, lclip, rclip) when x > 0 and norm(x, y, credibility, lclip,
    rclip) when x <= 0, the five arguments unchanged.  Unless x > y it
    returns a descriptor, lognormal in the first case and normal in the
    second; with x > y it returns nothing and fails with the
    RangeOrderError of the chosen constructor.  to(1, 10) is a lognormal
    descriptor and to(-10, 10) a normal one with mean 0.0. *)
Theorem to_dispatch (x y credibility : float) (lclip rclip : option float) :
  (Cmp.gt x 0 = true ->
     to x y credibility lclip rclip
       = lognorm (Some x) (Some y) credibility None None lclip rclip
     /\ (Cmp.gt x y = false ->
         exists d, to x y credibility lclip rclip = Ok d
                   /\ Self.type d = "lognorm"))
  /\ (Cmp.le x 0 = true ->
     to x y credibility lclip rclip
       = norm (Some x) (Some y) credibility None None lclip rclip
     /\ (Cmp.gt x y = false ->
         exists d, to x y credibility lclip rclip = Ok d
                   /\ Self.type d = "norm"))
  /\ (Cmp.gt x y = true ->
      failure (to x y credibility lclip rclip) = Some RangeOrderError)
  /\ (exists d, to 1 10 default_credibility None None = Ok d
                /\ Self.type d = "lognorm")
  /\ (exists d, to (-10) 10 default_credibility None None = Ok d
                /\ Self.type d = "norm" /\ Self.mean d = PFloat 0).
Proof.
  split; [|split; [|split; [|split]]].
  - intros Hpos. unfold to. rewrite Hpos.
    split; [reflexivity|]. intros Hord.
    run_init. simpl. rewrite Hord, (gt_not_le _ _ Hpos). simpl.
    eexists. split; reflexivity.
  - intros Hle. unfold to. rewrite (le_not_gt _ _ Hle).
    split; [reflexivity|]. intros Hord.
    run_init. simpl. rewrite Hord. simpl.
    eexists. split; reflexivity.
  - intros Hord. unfold to.
    destruct (Cmp.gt x 0); run_init; simpl; rewrite Hord; reflexivity.
  - eexists. split; reflexivity.
  - eexists. split; [reflexivity|]. split; reflexivity.
Qed.

(** C7: for norm, lognorm, tdist and log_tdist, whenever both endpoints
    are supplied and x > y, construction fails with a RangeOrderError,
    whatever the other arguments are. *)
Theorem high_below_low_rejected (x y : float) (mean sd : option float)
    (t credibility : float) (lclip rclip : option float)
    (Hgt : Cmp.gt x y = true) :
  failure (norm (Some x) (Some y) credibility mean sd lclip rclip)
    = Some RangeOrderError
  /\ failure (lognorm (Some x) (Some y) credibility mean sd lclip rclip)
    = Some RangeOrderError
  /\ failure (tdist (Some x) (Some y) t credibility lclip rclip)
    = Some RangeOrderError
  /\ failure (log_tdist (Some x) (Some y) t credibility lclip rclip)
    = Some RangeOrderError.
Proof.
  assert (Hord : high_below_low (Some x) (Some y) = true) by exact Hgt.
  repeat split; run_init; rewrite Hord; reflexivity.
Qed.

Lemma conflicting_guards (x y sd : option float) :
  conflicting x y sd ->
  (is_None x || is_None y) && is_None sd = true
  \/ ((is_None x || is_None y) && is_None sd = false
      /\ (negb (is_None x) || negb (is_None y)) && negb (is_None sd)
         = true).
Proof.
  unfold conflicting.
  destruct x, y, sd; simpl; intuition congruence.
Qed.

(** C3 (amended): for norm, if an endpoint is supplied together with sd,
    or neither a complete interval nor sd is supplied, construction fails
    with a ParameterConflictError unless both endpoints are supplied with
    x > y (the order of the endpoints is checked first); for lognorm the
    same holds unless, in addition, x is supplied with x <= 0 (the domain
    of x is checked second).  norm(x=1, y=2, sd=3) and norm() fail with a
    ParameterConflictError. *)
Theorem parameter_conflict_rejected (x y mean sd : option float)
    (credibility : float) (lclip rclip : option float)
    (Hconf : conflicting x y sd) (Hord : high_below_low x y = false) :
  failure (norm x y credibility mean sd lclip rclip)
    = Some ParameterConflictError
  /\ (not_positive x = false ->
      failure (lognorm x y credibility mean sd lclip rclip)
        = Some ParameterConflictError)
  /\ failure (norm (Some 1) (Some 2) default_credibility None (Some 3)
                None None) = Some ParameterConflictError
  /\ failure (norm None None default_credibility None None None None)
       = Some ParameterConflictError.
Proof.
  split; [|split; [|split; reflexivity]].
  - run_init. rewrite Hord.
    destruct (conflicting_guards x y sd Hconf) as [-> | [-> ->]];
      reflexivity.
  - intros Hpos. run_init. rewrite Hord, Hpos.
    destruct (conflicting_guards x y sd Hconf) as [-> | [-> ->]];
      reflexivity.
Qed.

(** C6 (amended): for every supplied low endpoint x <= 0, lognorm(x=x, y=y)
    fails with a DomainError when y is absent or x > y does not hold, and
    with a RangeOrderError when y is supplied and x > y (the order of the
    endpoints is checked before the domain of x); lognorm(x=-1, y=5) fails
    with a DomainError. *)
Theorem lognorm_low_not_positive (x : float) (y mean sd : option float)
    (credibility : float) (lclip rclip : option float)
    (Hx : Cmp.le x 0 = true) :
  (high_below_low (Some x) y = false ->
   failure (lognorm (Some x) y credibility mean sd lclip rclip)
     = Some DomainError)
  /\ (high_below_low (Some x) y = true ->
      failure (lognorm (Some x) y credibility mean sd lclip rclip)
        = Some RangeOrderError)
  /\ failure (lognorm (Some (-1)) (Some 5) default_credibility None None
                None None) = Some DomainError.
Proof.
  assert (Hdom : not_positive (Some x) = true) by exact Hx.
  split; [|split; [|reflexivity]].
  - intros Hord. run_init. rewrite Hord, Hdom. reflexivity.
  - intros Hord. run_init. rewrite Hord. reflexivity.
Qed.

End Validation.

(** ** The approximate-interval family *)

(** C8: tdist and log_tdist constructed with no interval (x and y both
    absent) store credibility = None, whatever credibility was passed. *)
Theorem no_interval_clears_credibility (t credibility : float)
    (lclip rclip : option float) :
  (exists d, tdist None None t credibility lclip rclip = Ok d
             /\ Self.credibility d = PNone)
  /\ (exists d, log_tdist None None t credibility lclip rclip = Ok d
                /\ Self.credibility d = PNone).
Proof. split; eexists; split; reflexivity. Qed.

(** With an interval the credibility passed is the one stored. *)
Lemma interval_keeps_credibility (x y t credibility : float)
    (lclip rclip : option float) :
  Cmp.le x y = true ->
  exists d, tdist (Some x) (Some y) t credibility lclip rclip = Ok d
            /\ Self.credibility d = PFloat credibility.
Proof.
  intros Hxy. run_init. rewrite (high_below_low_le x y Hxy). simpl.
  eexists. split; reflexivity.
Qed.

(** ** Simple constructors *)

(** C5: binomial at a p outside [0, 1].  BinomialDistribution.__init__
    only assigns n, p and the type name: for every n and p it returns a
    descriptor that stores them, so binomial(1, 1.5) returns a descriptor
    with p = 1.5, where bernoulli(1.5) fails. *)
Theorem binomial_unchecked :
  (forall n p : pyval,
     exists d, binomial n p = Ok d
               /\ Self.n d = n /\ Self.p d = p
               /\ Self.type d = "binomial")
  /\ Cmp.gt 1.5 1 = true
  /\ returns (binomial (PInt 1) (PFloat 1.5)) = true
  /\ failure (binomial (PInt 1) (PFloat 1.5)) = None
  /\ failure (bernoulli (PFloat 1.5)) = Some DomainError.
Proof.
  split; [|repeat split].
  intros n p. eexists. repeat split.
Qed.

(** C9 (amended): discrete(items) succeeds and stores items unchanged for
    every items that is a dict or a list (a dict from value to weight, a
    list of [weight, value] pairs, a bare list of values), and fails with a
    ValidationError for every items that is neither a dict nor a list: the
    number 42, and also a tuple or a str, which are ordered sequences.
    The three documented shapes construct. *)
Theorem discrete_shapes (items : pyval) :
  (isinstance_dict items = true \/ isinstance_list items = true ->
   exists d, discrete items = Ok d
             /\ Self.items d = items /\ Self.type d = "discrete")
  /\ (isinstance_dict items = false -> isinstance_list items = false ->
      failure (discrete items) = Some ValidationError)
  /\ returns (discrete (PDict [(PStr "a", PFloat 0.1);
                               (PStr "b", PFloat 0.9)])) = true
  /\ returns (discrete (PList [PList [PFloat 0.1; PStr "a"];
                               PList [PFloat 0.9; PStr "b"]])) = true
  /\ returns (discrete (PList [PStr "a"; PStr "b"])) = true
  /\ failure (discrete (PInt 42)) = Some ValidationError
  /\ failure (discrete (PTuple [PStr "a"; PStr "b"]))
       = Some ValidationError
  /\ failure (discrete (PStr "ab")) = Some ValidationError.
Proof.
  split; [|split; [|repeat split]].
  - unfold discrete, DiscreteDistribution.
    intros [H | H]; rewrite H; [|rewrite andb_false_r];
      eexists; repeat split.
  - unfold discrete, DiscreteDistribution. intros -> ->. reflexivity.
Qed.

(** ** bernoulli *)

Lemma float_of_int_0 : Cmp.float_of_int 0 = 0%float.
Proof. reflexivity. Qed.

Lemma float_of_int_1 : Cmp.float_of_int 1 = 1%float.
Proof. reflexivity. Qed.

(** A float in [0, 1] is accepted and stored. *)
Lemma bernoulli_float_accepted (f : float) :
  Cmp.lt f 0 = false -> Cmp.gt f 1 = false ->
  exists d, bernoulli (PFloat f) = Ok d /\ Self.p d = PFloat f.
Proof.
  intros Hlo Hhi. unfold bernoulli, BernoulliDistribution. simpl.
  unfold Cmp.float_lt_int, Cmp.float_gt_int. simpl.
  rewrite float_of_int_0, float_of_int_1, Hlo. simpl. rewrite Hhi.
  eexists. split; reflexivity.
Qed.

(** A float below 0 or above 1 is a DomainError. *)
Lemma bernoulli_float_outside (f : float) :
  Cmp.lt f 0 = true \/ Cmp.gt f 1 = true ->
  failure (bernoulli (PFloat f)) = Some DomainError.
Proof.
  intros H. unfold bernoulli, BernoulliDistribution. simpl.
  unfold Cmp.float_lt_int, Cmp.float_gt_int. simpl.
  rewrite float_of_int_0, float_of_int_1.
  destruct (Cmp.lt f 0) eqn:Hlo; simpl; [reflexivity|].
  destruct H as [H | H]; [discriminate|]. rewrite H. reflexivity.
Qed.

(** Whatever is not a float is refused by the type test. *)
Lemma bernoulli_not_float (v : pyval) :
  isinstance_float v = false ->
  bernoulli v = Raise (ValueError "bernoulli p must be a float or int").
Proof.
  intros H. unfold bernoulli, BernoulliDistribution. rewrite H. reflexivity.
Qed.

(** C4: bernoulli at an int.  The type test is
    [not isinstance(p, float) or isinstance(p, int)], which is true of
    every int: bernoulli(1) and bernoulli(0), ints inside [0, 1], are
    refused with the message 'bernoulli p must be a float or int', and
    bernoulli(2), an int outside [0, 1], fails with that ValidationError
    and not with a DomainError. *)
Theorem bernoulli_int_refused :
  (forall z : Z,
     bernoulli (PInt z)
       = Raise (ValueError "bernoulli p must be a float or int"))
  /\ returns (bernoulli (PInt 1)) = false
  /\ returns (bernoulli (PInt 0)) = false
  /\ failure (bernoulli (PInt 2)) = Some ValidationError
  /\ failure (bernoulli (PFloat 1.5)) = Some DomainError
  /\ returns (bernoulli (PFloat 0.5)) = true.
Proof. repeat split. Qed.

(** * Worked instances

    The statements above at concrete arguments, with the primitives taken
    from [table_primitives]. *)

Section Instances.

#[local] Existing Instance table_primitives.

(** norm(0, 1) has mean 0.5 and sd 0.5 / ppf(0.95); lognorm(1, 10) has
    the log-space mean ln(10) / 2 and sd (ln(10) - mean) / ppf(0.95). *)
Lemma interval_inference_0_1_and_1_10 :
  (exists d,
     norm (Some 0) (Some 1) default_credibility None None None None = Ok d
     /\ Self.mean d = PFloat 0.5
     /\ Self.sd d = PFloat (0.5 / 1.6448536269514722))
  /\ (exists d,
     lognorm (Some 1) (Some 10) default_credibility None None None None
       = Ok d
     /\ Self.mean d = PFloat (2.302585092994046 / 2)
     /\ Self.sd d = PFloat ((2.302585092994046 - 2.302585092994046 / 2)
                            / 1.6448536269514722)).
Proof.
  split.
  - destruct (proj1 (interval_inference 0 1 default_credibility None None
                       eq_refl)) as (d & m & Hd & Hm & Hmean & Hsd).
    exists d. subst m. split; [exact Hd|]. split; [exact Hmean|exact Hsd].
  - destruct (proj2 (interval_inference 1 10 default_credibility None None
                       eq_refl) eq_refl) as (d & m & Hd & Hm & Hmean & Hsd).
    exists d. subst m. split; [exact Hd|]. split; [exact Hmean|exact Hsd].
Defined.

(** to(1, 10) is lognorm(1, 10) and returns a lognormal descriptor;
    to(-10, 10) is norm(-10, 10) and returns a normal one. *)
Lemma to_dispatch_1_10_and_m10_10 :
  (to 1 10 default_credibility None None
     = lognorm (Some 1) (Some 10) default_credibility None None None None
   /\ exists d, to 1 10 default_credibility None None = Ok d
                /\ Self.type d = "lognorm")
  /\ (to (-10) 10 default_credibility None None
       = norm (Some (-10)) (Some 10) default_credibility None None None None
     /\ exists d, to (-10) 10 default_credibility None None = Ok d
                  /\ Self.type d = "norm").
Proof.
  pose proof (proj1 (to_dispatch 1 10 default_credibility None None)
                eq_refl) as Hlog.
  pose proof (proj1 (proj2 (to_dispatch (-10) 10 default_credibility
                              None None)) eq_refl) as Hnorm.
  split.
  - split; [exact (proj1 Hlog)|exact (proj2 Hlog eq_refl)].
  - split; [exact (proj1 Hnorm)|exact (proj2 Hnorm eq_refl)].
Defined.

(** to(2, 1): x > 0, and no descriptor is returned. *)
Lemma to_2_1_returns_nothing :
  Cmp.gt 2 0 = true
  /\ returns (to 2 1 default_credibility None None) = false
  /\ ~ (exists d, to 2 1 default_credibility None None = Ok d
                  /\ Self.type d = "lognorm").
Proof.
  split; [reflexivity|]. split; [reflexivity|].
  intros (d & H & _). discriminate H.
Defined.

(** norm(x=1, sd=3) and lognorm(x=1, sd=3): an endpoint together with sd. *)
Lemma parameter_conflict_x_with_sd :
  failure (norm (Some 1) None default_credibility None (Some 3) None None)
    = Some ParameterConflictError
  /\ failure (lognorm (Some 1) None default_credibility None (Some 3)
                None None) = Some ParameterConflictError.
Proof.
  assert (Hconf : conflicting (Some 1) None (Some 3)).
  { left. split; [left|]; discriminate. }
  pose proof (parameter_conflict_rejected (Some 1) None None (Some 3)
                default_credibility None None Hconf eq_refl) as H.
  split; [exact (proj1 H)|exact (proj1 (proj2 H) eq_refl)].
Defined.

(** norm(x=2, y=1, sd=3): an endpoint is supplied together with sd, and
    the failure is the RangeOrderError of the first check, not a
    ParameterConflictError. *)
Lemma range_order_precedes_conflict :
  conflicting (Some 2) (Some 1) (Some 3)
  /\ failure (norm (Some 2) (Some 1) default_credibility None (Some 3)
                None None) = Some RangeOrderError
  /\ failure (norm (Some 2) (Some 1) default_credibility None (Some 3)
                None None) <> Some ParameterConflictError.
Proof.
  split; [|split].
  - left. split; [left|]; discriminate.
  - reflexivity.
  - discriminate.
Defined.

(** lognorm(x=-1) fails with a DomainError, lognorm(x=-1, y=-5) with a
    RangeOrderError. *)
Lemma lognorm_low_m1 :
  failure (lognorm (Some (-1)) None default_credibility None None None None)
    = Some DomainError
  /\ failure (lognorm (Some (-1)) (Some (-5)) default_credibility None None
                None None) = Some RangeOrderError.
Proof.
  split.
  - exact (proj1 (lognorm_low_not_positive (-1) None None None
                    default_credibility None None eq_refl) eq_refl).
  - exact (proj1 (proj2 (lognorm_low_not_positive (-1) (Some (-5)) None None
                           default_credibility None None eq_refl)) eq_refl).
Defined.

(** lognorm(x=-1, y=-5): the low endpoint is not positive, and the
    failure is the RangeOrderError of the first check, not a
    DomainError. *)
Lemma range_order_precedes_domain :
  Cmp.le (-1) 0 = true
  /\ failure (lognorm (Some (-1)) (Some (-5)) default_credibility None None
                None None) = Some RangeOrderError
  /\ failure (lognorm (Some (-1)) (Some (-5)) default_credibility None None
                None None) <> Some DomainError.
Proof. split; [reflexivity|split; [reflexivity|discriminate]]. Defined.

(** Endpoints 2 and 1, in the four constructors. *)
Lemma high_below_low_2_1 :
  failure (norm (Some 2) (Some 1) default_credibility None None None None)
    = Some RangeOrderError
  /\ failure (lognorm (Some 2) (Some 1) default_credibility None None
                None None) = Some RangeOrderError
  /\ failure (tdist (Some 2) (Some 1) default_t default_credibility
                None None) = Some RangeOrderError
  /\ failure (log_tdist (Some 2) (Some 1) default_t default_credibility
                None None) = Some RangeOrderError.
Proof.
  exact (high_below_low_rejected 2 1 None None default_t
           default_credibility None None eq_refl).
Defined.

(** norm(x=1, y=10, mean=3) and lognorm(x=1, y=10, mean=3). *)
Lemma mean_with_interval_1_10_3 :
  (exists d,
     norm (Some 1) (Some 10) default_credibility (Some 3) None None None
       = Ok d
     /\ Self.mean d = PFloat 3 /\ Self.sd d = PNone)
  /\ (exists d,
     lognorm (Some 1) (Some 10) default_credibility (Some 3) None None None
       = Ok d
     /\ Self.mean d = PFloat 3 /\ Self.sd d = PNone).
Proof.
  pose proof (mean_with_interval_skips_inference 1 10 3 default_credibility
                None None eq_refl) as H.
  split; [exact (proj1 H)|exact (proj2 H eq_refl)].
Defined.

End Instances.

(** discrete(['a']) stores its list; discrete(42) is refused. *)
Lemma discrete_list_and_42 :
  (exists d, discrete (PList [PStr "a"]) = Ok d
             /\ Self.items d = PList [PStr "a"]
             /\ Self.type d = "discrete")
  /\ failure (discrete (PInt 42)) = Some ValidationError.
Proof.
  split.
  - exact (proj1 (discrete_shapes (PList [PStr "a"])) (or_intror eq_refl)).
  - exact (proj1 (proj2 (discrete_shapes (PInt 42))) eq_refl eq_refl).
Defined.

(** discrete(('a', 'b')): a tuple is an ordered sequence of values, and
    it is refused. *)
Lemma discrete_tuple_refused :
  returns (discrete (PTuple [PStr "a"; PStr "b"])) = false
  /\ ~ (exists d, discrete (PTuple [PStr "a"; PStr "b"]) = Ok d).
Proof.
  split; [reflexivity|]. intros (d & H). discriminate H.
Defined.

(** * Further properties of the constructors *)

Section Constructors.

Context {prim : Primitives}.

(** X1: defined by sd with no interval, norm and lognorm store sd as given and
    the mean as given, or the int 0 when the mean is omitted; credibility
    plays no part, and lognorm takes no logarithm of either. *)
Theorem sd_without_interval (mean : option float) (sd credibility : float)
    (lclip rclip : option float) :
  (exists d,
     norm None None credibility mean (Some sd) lclip rclip = Ok d
     /\ Self.mean d = match mean with Some m => PFloat m | None => PInt 0 end
     /\ Self.sd d = PFloat sd
     /\ Self.x d = PNone /\ Self.y d = PNone)
  /\ (exists d,
     lognorm None None credibility mean (Some sd) lclip rclip = Ok d
     /\ Self.mean d = match mean with Some m => PFloat m | None => PInt 0 end
     /\ Self.sd d = PFloat sd
     /\ Self.x d = PNone /\ Self.y d = PNone).
Proof.
  split; destruct mean; eexists; (split; [reflexivity|]); repeat split.
Qed.

(** X2: norm returns a descriptor exactly in two cases: both endpoints and no
    sd, with x > y false; or no endpoint and an sd. *)
Theorem norm_returns_iff (x y mean sd : option float) (credibility : float)
    (lclip rclip : option float) :
  returns (norm x y credibility mean sd lclip rclip) = true
  <-> (exists lo hi, x = Some lo /\ y = Some hi /\ sd = None
                     /\ Cmp.gt lo hi = false)
      \/ (x = None /\ y = None /\ sd <> None).
Proof.
  run_init. split.
  - destruct x as [lo|], y as [hi|], sd as [s|]; simpl;
      try discriminate.
    + destruct (Cmp.gt lo hi); discriminate.
    + destruct (Cmp.gt lo hi) eqn:Hgt; [discriminate|].
      intros _. left. exists lo, hi. auto.
    + intros _. right. repeat split. discriminate.
  - intros [(lo & hi & -> & -> & -> & Hgt) | (-> & -> & Hsd)].
    + simpl. rewrite Hgt. destruct mean; reflexivity.
    + destruct sd; [|congruence]. destruct mean; reflexivity.
Qed.

(** X3: lognorm returns a descriptor exactly in two cases: both endpoints and
    no sd, with neither x > y nor x <= 0; or no endpoint and an sd. *)
Theorem lognorm_returns_iff (x y mean sd : option float)
    (credibility : float) (lclip rclip : option float) :
  returns (lognorm x y credibility mean sd lclip rclip) = true
  <-> (exists lo hi, x = Some lo /\ y = Some hi /\ sd = None
                     /\ Cmp.gt lo hi = false /\ Cmp.le lo 0 = false)
      \/ (x = None /\ y = None /\ sd <> None).
Proof.
  run_init. split.
  - destruct x as [lo|], y as [hi|], sd as [s|]; simpl;
      try discriminate.
    + destruct (Cmp.gt lo hi); [discriminate|].
      destruct (Cmp.le lo 0); discriminate.
    + destruct (Cmp.gt lo hi) eqn:Hgt; [discriminate|].
      destruct (Cmp.le lo 0) eqn:Hle; [discriminate|].
      intros _. left. exists lo, hi. auto.
    + destruct (Cmp.le lo 0); discriminate.
    + destruct (Cmp.le lo 0); discriminate.
    + intros _. right. repeat split. discriminate.
  - intros [(lo & hi & -> & -> & -> & Hgt & Hle) | (-> & -> & Hsd)].
    + simpl. rewrite Hgt, Hle. destruct mean; reflexivity.
    + destruct sd; [|congruence]. destruct mean; reflexivity.
Qed.

(** X4: a failure of norm is a RangeOrderError or a ParameterConflictError, and
    a failure of lognorm one of these or a DomainError: the arithmetic of
    the inference is never reached with a missing endpoint. *)
Theorem interval_failures_classified (x y mean sd : option float)
    (credibility : float) (lclip rclip : option float) :
  (returns (norm x y credibility mean sd lclip rclip) = true
   \/ failure (norm x y credibility mean sd lclip rclip)
        = Some RangeOrderError
   \/ failure (norm x y credibility mean sd lclip rclip)
        = Some ParameterConflictError)
  /\ (returns (lognorm x y credibility mean sd lclip rclip) = true
      \/ failure (lognorm x y credibility mean sd lclip rclip)
           = Some RangeOrderError
      \/ failure (lognorm x y credibility mean sd lclip rclip)
           = Some DomainError
      \/ failure (lognorm x y credibility mean sd lclip rclip)
           = Some ParameterConflictError).
Proof.
  split; run_init.
  - destruct (high_below_low x y); [right; left; reflexivity|].
    destruct x, y, mean, sd; simpl; auto.
  - destruct (high_below_low x y); [right; left; reflexivity|].
    destruct (not_positive x); [right; right; left; reflexivity|].
    destruct x, y, mean, sd; simpl; auto.
Qed.

(** X5: a descriptor returned by norm or lognorm keeps the interval, the
    credibility and the clips it was given, also after the inference and
    also when it was defined by mean and sd. *)
Theorem interval_arguments_stored (x y mean sd : option float)
    (credibility : float) (lclip rclip : option float) (d : Distribution) :
  norm x y credibility mean sd lclip rclip = Ok d
  \/ lognorm x y credibility mean sd lclip rclip = Ok d ->
  Self.x d = attr x /\ Self.y d = attr y
  /\ Self.credibility d = PFloat credibility
  /\ Self.lclip d = attr lclip /\ Self.rclip d = attr rclip.
Proof.
  run_init. intros [H | H]; revert H.
  - destruct (high_below_low x y); [discriminate|].
    destruct x, y, mean, sd; simpl; intros H; inversion H; repeat split.
  - destruct (high_below_low x y); [discriminate|].
    destruct (not_positive x); [discriminate|].
    destruct x, y, mean, sd; simpl; intros H; inversion H; repeat split.
Qed.

(** X6: the clips are never validated: whether norm, lognorm, tdist and
    log_tdist return, and with which error they fail, does not depend on
    lclip and rclip (so lclip > rclip is accepted). *)
Theorem clips_unchecked (x y mean sd : option float) (t credibility : float)
    (lclip rclip lclip' rclip' : option float) :
  failure (norm x y credibility mean sd lclip rclip)
    = failure (norm x y credibility mean sd lclip' rclip')
  /\ returns (norm x y credibility mean sd lclip rclip)
    = returns (norm x y credibility mean sd lclip' rclip')
  /\ failure (lognorm x y credibility mean sd lclip rclip)
    = failure (lognorm x y credibility mean sd lclip' rclip')
  /\ returns (lognorm x y credibility mean sd lclip rclip)
    = returns (lognorm x y credibility mean sd lclip' rclip')
  /\ failure (tdist x y t credibility lclip rclip)
    = failure (tdist x y t credibility lclip' rclip')
  /\ returns (tdist x y t credibility lclip rclip)
    = returns (tdist x y t credibility lclip' rclip')
  /\ failure (log_tdist x y t credibility lclip rclip)
    = failure (log_tdist x y t credibility lclip' rclip')
  /\ returns (log_tdist x y t credibility lclip rclip)
    = returns (log_tdist x y t credibility lclip' rclip').
Proof.
  run_init.
  destruct (high_below_low x y); [repeat split; destruct x, y; reflexivity|].
  destruct (not_positive x);
    repeat split; destruct x, y, mean, sd; reflexivity.
Qed.

End Constructors.

Section Dispatcher.

Context {prim : Primitives}.

(** X7: to fails only on the order of the endpoints: with x > y it fails with
    a RangeOrderError, and otherwise it returns a descriptor whose mean and
    sd are both inferred floats; the lognormal branch is never stopped by
    the domain check. *)
Theorem to_fails_only_on_order (x y credibility : float)
    (lclip rclip : option float) :
  (Cmp.gt x y = true ->
   failure (to x y credibility lclip rclip) = Some RangeOrderError)
  /\ (Cmp.gt x y = false ->
      exists d m s, to x y credibility lclip rclip = Ok d
                    /\ Self.mean d = PFloat m /\ Self.sd d = PFloat s).
Proof.
  unfold to. split; intros Hord.
  - destruct (Cmp.gt x 0); run_init; simpl; rewrite Hord; reflexivity.
  - destruct (Cmp.gt x 0) eqn:Hpos; run_init; simpl; rewrite Hord.
    + rewrite (gt_not_le _ _ Hpos). simpl.
      do 3 eexists. split; [reflexivity|]. split; reflexivity.
    + simpl. do 3 eexists. split; [reflexivity|]. split; reflexivity.
Qed.

End Dispatcher.

(** ** tdist and log_tdist *)

(** X8: a single endpoint is refused: tdist and log_tdist with x and no y, or
    y and no x, fail with a ParameterConflictError. *)
Theorem one_endpoint_rejected (v t credibility : float)
    (lclip rclip : option float) :
  failure (tdist (Some v) None t credibility lclip rclip)
    = Some ParameterConflictError
  /\ failure (tdist None (Some v) t credibility lclip rclip)
    = Some ParameterConflictError
  /\ failure (log_tdist (Some v) None t credibility lclip rclip)
    = Some ParameterConflictError
  /\ failure (log_tdist None (Some v) t credibility lclip rclip)
    = Some ParameterConflictError.
Proof. repeat split. Qed.

(** X9: tdist and log_tdist return a descriptor exactly when no endpoint is
    given, or both are and x > y is false; log_tdist puts no sign
    condition on x. *)
Theorem tdist_returns_iff (x y : option float) (t credibility : float)
    (lclip rclip : option float) :
  (returns (tdist x y t credibility lclip rclip) = true
   <-> (x = None /\ y = None)
       \/ exists lo hi, x = Some lo /\ y = Some hi /\ Cmp.gt lo hi = false)
  /\ returns (log_tdist x y t credibility lclip rclip)
     = returns (tdist x y t credibility lclip rclip).
Proof.
  run_init. split; [split|].
  - destruct x as [lo|], y as [hi|]; simpl; try discriminate.
    + destruct (Cmp.gt lo hi) eqn:Hgt; [discriminate|].
      intros _. right. exists lo, hi. auto.
    + intros _. left. auto.
  - intros [[-> ->] | (lo & hi & -> & -> & Hgt)]; simpl.
    + reflexivity.
    + rewrite Hgt. reflexivity.
  - destruct x as [lo|], y as [hi|]; simpl; try reflexivity.
    destruct (Cmp.gt lo hi); reflexivity.
Qed.

(** X10: log_tdist validates and stores exactly as tdist does: its result is
    the result of tdist with the type name replaced. *)
Theorem log_tdist_as_tdist (x y : option float) (t credibility : float)
    (lclip rclip : option float) :
  log_tdist x y t credibility lclip rclip
  = let* d := tdist x y t credibility lclip rclip in
    Ok (Self.set_type "log_tdist" d).
Proof.
  run_init.
  destruct x as [lo|], y as [hi|]; simpl; try reflexivity.
  destruct (Cmp.gt lo hi); reflexivity.
Qed.

(** X11: with both endpoints and x > y false, tdist and log_tdist store the
    interval, t and the credibility passed, unchanged: no mean or sd is
    inferred. *)
Theorem approximate_interval_stored (x y t credibility : float)
    (lclip rclip : option float) (Hord : Cmp.gt x y = false) :
  (exists d, tdist (Some x) (Some y) t credibility lclip rclip = Ok d
             /\ Self.x d = PFloat x /\ Self.y d = PFloat y
             /\ Self.t d = PFloat t
             /\ Self.credibility d = PFloat credibility
             /\ Self.mean d = PNone /\ Self.sd d = PNone)
  /\ (exists d, log_tdist (Some x) (Some y) t credibility lclip rclip = Ok d
                /\ Self.x d = PFloat x /\ Self.y d = PFloat y
                /\ Self.t d = PFloat t
                /\ Self.credibility d = PFloat credibility
                /\ Self.mean d = PNone /\ Self.sd d = PNone).
Proof.
  split; run_init; simpl; rewrite Hord; eexists;
    (split; [reflexivity|]); repeat split.
Qed.

(** ** bernoulli, in full *)

(** X12: bernoulli returns a descriptor exactly for a float p for which neither
    p < 0 nor p > 1 holds, and then stores p; both comparisons are false
    of NaN, which is therefore accepted. *)
Theorem bernoulli_returns_iff (v : pyval) :
  (returns (bernoulli v) = true
   <-> exists f, v = PFloat f /\ Cmp.lt f 0 = false /\ Cmp.gt f 1 = false)
  /\ (forall d, bernoulli v = Ok d ->
                Self.p d = v /\ Self.type d = "bernoulli").
Proof.
  split; [split|].
  - destruct v as [ |b|z|f|s|l|tl|kvs]; try discriminate.
    unfold bernoulli, BernoulliDistribution. simpl.
    unfold Cmp.float_lt_int, Cmp.float_gt_int. simpl.
    rewrite float_of_int_0, float_of_int_1.
    destruct (Cmp.lt f 0) eqn:Hlo; simpl; [discriminate|].
    destruct (Cmp.gt f 1) eqn:Hhi; simpl; [discriminate|].
    intros _. exists f. auto.
  - intros (f & -> & Hlo & Hhi).
    destruct (bernoulli_float_accepted f Hlo Hhi) as (d & -> & _).
    reflexivity.
  - intros d. destruct v as [ |b|z|f|s|l|tl|kvs]; try discriminate.
    unfold bernoulli, BernoulliDistribution. simpl.
    destruct (Cmp.float_lt_int f 0); simpl; [discriminate|].
    destruct (Cmp.float_gt_int f 1); simpl; [discriminate|].
    intros H. inversion H. split; reflexivity.
Qed.

(** X13: bernoulli and discrete never fail outside the taxonomy: the two
    comparisons of bernoulli are only reached by a float, so no TypeError
    can come out of them. *)
Theorem type_tests_guard_comparisons (v : pyval) :
  (returns (bernoulli v) = true
   \/ failure (bernoulli v) = Some ValidationError
   \/ failure (bernoulli v) = Some DomainError)
  /\ (returns (discrete v) = true
      \/ failure (discrete v) = Some ValidationError).
Proof.
  split.
  - destruct v as [ |b|z|f|s|l|tl|kvs]; try (right; left; reflexivity).
    unfold bernoulli, BernoulliDistribution. simpl.
    destruct (Cmp.float_lt_int f 0); simpl; [right; right; reflexivity|].
    destruct (Cmp.float_gt_int f 1); simpl; [right; right; reflexivity|].
    left. reflexivity.
  - destruct v; simpl; auto.
Qed.

(** * Properties of the rendering *)

Lemma append_assoc (s1 s2 s3 : string) :
  ((s1 ++ s2) ++ s3 = s1 ++ (s2 ++ s3))%string.
Proof.
  induction s1 as [|c s1 IH]; simpl; [reflexivity|]. rewrite IH. reflexivity.
Qed.

Section RenderingProperties.

Context {prim : Primitives} {builtins : Builtins}.

(** X14: rendering a descriptor that norm or lognorm returned fails exactly
    when it was built with a mean and no sd (an interval with a mean):
    [round(self.sd, 2)] is then applied to None.  In every other case
    [str] returns. *)
Theorem interval_str_returns_iff (x y mean sd : option float)
    (credibility : float) (lclip rclip : option float) :
  returns (rendered (norm x y credibility mean sd lclip rclip)
             NormalDistribution_str)
  = returns (norm x y credibility mean sd lclip rclip)
    && (negb (is_None sd) || is_None mean)
  /\ returns (rendered (lognorm x y credibility mean sd lclip rclip)
                LognormalDistribution_str)
  = returns (lognorm x y credibility mean sd lclip rclip)
    && (negb (is_None sd) || is_None mean).
Proof.
  unfold rendered. run_init. split.
  - destruct (high_below_low x y); [reflexivity|].
    destruct x, y, mean, sd; reflexivity.
  - destruct (high_below_low x y); [reflexivity|].
    destruct (not_positive x); [reflexivity|].
    destruct x, y, mean, sd; reflexivity.
Qed.

(** X15: with both endpoints, x > y false, a mean and no sd, norm returns a
    descriptor and rendering it raises the TypeError of [round(None, 2)],
    "type NoneType doesn't define __round__ method". *)
Theorem mean_with_interval_str_raises (x y m credibility : float)
    (lclip rclip : option float) (Hord : Cmp.gt x y = false) :
  returns (norm (Some x) (Some y) credibility (Some m) None lclip rclip)
    = true
  /\ rendered (norm (Some x) (Some y) credibility (Some m) None lclip rclip)
       NormalDistribution_str
     = Raise (TypeError "type NoneType doesn't define __round__ method").
Proof.
  unfold rendered. run_init. simpl. rewrite Hord. split; reflexivity.
Qed.

(** X16: what to returns can always be rendered: its text is that of the
    rounded inferred mean and sd. *)
Theorem to_str_returns (x y credibility : float)
    (lclip rclip : option float) :
  returns (rendered (to x y credibility lclip rclip)
             (if Cmp.gt x 0 then LognormalDistribution_str
              else NormalDistribution_str))
  = returns (to x y credibility lclip rclip).
Proof.
  unfold rendered, to.
  destruct (Cmp.gt x 0) eqn:Hpos; run_init; simpl.
  - destruct (Cmp.gt x y); [reflexivity|].
    rewrite (gt_not_le _ _ Hpos). reflexivity.
  - destruct (Cmp.gt x y); reflexivity.
Qed.

(** X17: the text of an inferred normal: the type name, the rounded mean and
    the rounded sd, and no clip when none was given. *)
Theorem interval_str_text (x y credibility : float)
    (Hord : Cmp.gt x y = false) :
  rendered (norm (Some x) (Some y) credibility None None None None)
    NormalDistribution_str
  = Ok ("<Distribution> norm(mean=" ++ fmt (PFloat (round2 ((x + y) / 2)))
        ++ ", sd="
        ++ fmt (PFloat (round2 ((y - (x + y) / 2)
                                / ppf (0.5 + 0.5 * (credibility / 100)))))
        ++ ")").
Proof.
  unfold rendered. run_init. simpl. rewrite Hord. simpl.
  unfold NormalDistribution_str, with_clips. simpl.
  rewrite !append_assoc. reflexivity.
Qed.

(** X18: without an interval the text of a tdist or log_tdist never shows the
    credibility, whatever was passed: it is the type name and t. *)
Theorem no_interval_str (t credibility : float) :
  rendered (tdist None None t credibility None None)
    (fun d => Ok (TDistribution_str d))
  = Ok ("<Distribution> tdist(t=" ++ fmt (PFloat t) ++ ")")
  /\ rendered (log_tdist None None t credibility None None)
       (fun d => Ok (LogTDistribution_str d))
     = Ok ("<Distribution> log_tdist(t=" ++ fmt (PFloat t) ++ ")").
Proof. split; reflexivity. Qed.

(** X19: with an interval the text of a tdist shows x, y and t, and the
    credibility exactly when it differs from 90. *)
Theorem interval_str_credibility (x y t credibility : float)
    (Hord : Cmp.gt x y = false) :
  rendered (tdist (Some x) (Some y) t credibility None None)
    (fun d => Ok (TDistribution_str d))
  = Ok ("<Distribution> tdist(x=" ++ fmt (PFloat x)
        ++ ", y=" ++ fmt (PFloat y) ++ ", t=" ++ fmt (PFloat t)
        ++ (if PrimFloat.eqb credibility 90 then ""
            else ", credibility=" ++ fmt (PFloat credibility))
        ++ ")").
Proof.
  unfold rendered. run_init. simpl. rewrite Hord. simpl.
  unfold TDistribution_str, with_clips. simpl.
  unfold float_eq_int. simpl.
  change (Cmp.float_of_int 90) with 90%float.
  destruct (PrimFloat.eqb credibility 90); simpl;
    rewrite !append_assoc; simpl; rewrite ?append_assoc; reflexivity.
Qed.

End RenderingProperties.

(** * Further worked instances *)

Section MoreInstances.

#[local] Existing Instance table_primitives.
#[local] Existing Instance table_builtins.

(** norm(0, 1) returns; norm(sd=1) returns. *)
Lemma norm_returns_0_1 :
  returns (norm (Some 0) (Some 1) default_credibility None None None None)
    = true
  /\ returns (norm None None default_credibility None (Some 1) None None)
    = true.
Proof.
  split.
  - apply (proj2 (norm_returns_iff (Some 0) (Some 1) None None
                    default_credibility None None)).
    left. exists 0, 1. repeat split.
  - apply (proj2 (norm_returns_iff None None None (Some 1)
                    default_credibility None None)).
    right. repeat split. discriminate.
Defined.

(** lognorm(1, 10) returns. *)
Lemma lognorm_returns_1_10 :
  returns (lognorm (Some 1) (Some 10) default_credibility None None None None)
    = true.
Proof.
  apply (proj2 (lognorm_returns_iff (Some 1) (Some 10) None None
                  default_credibility None None)).
  left. exists 1, 10. repeat split.
Defined.

(** norm(0, 1, credibility=95.0, lclip=2, rclip=1) keeps its interval,
    its credibility and its clips. *)
Lemma interval_arguments_stored_0_1 :
  exists d,
    norm (Some 0) (Some 1) 95 None None (Some 2) (Some 1) = Ok d
    /\ Self.x d = PFloat 0 /\ Self.y d = PFloat 1
    /\ Self.credibility d = PFloat 95
    /\ Self.lclip d = PFloat 2 /\ Self.rclip d = PFloat 1.
Proof.
  eexists. split; [reflexivity|].
  exact (interval_arguments_stored (Some 0) (Some 1) None None
           95 (Some 2) (Some 1) _ (or_introl eq_refl)).
Defined.

(** to(2, 1) fails on the order; to(1, 10) infers mean and sd. *)
Lemma to_2_1_and_1_10 :
  failure (to 2 1 default_credibility None None) = Some RangeOrderError
  /\ exists d m s, to 1 10 default_credibility None None = Ok d
                   /\ Self.mean d = PFloat m /\ Self.sd d = PFloat s.
Proof.
  split.
  - exact (proj1 (to_fails_only_on_order 2 1 default_credibility None None)
             eq_refl).
  - exact (proj2 (to_fails_only_on_order 1 10 default_credibility None None)
             eq_refl).
Defined.

(** Rendering norm(1, 10, mean=3) raises. *)
Lemma mean_with_interval_str_1_10_3 :
  rendered (norm (Some 1) (Some 10) default_credibility (Some 3) None
              None None) NormalDistribution_str
  = Raise (TypeError "type NoneType doesn't define __round__ method").
Proof.
  exact (proj2 (mean_with_interval_str_raises 1 10 3 default_credibility
                  None None eq_refl)).
Defined.

(** norm(0, 1) prints as documented. *)
Lemma norm_0_1_str :
  rendered (norm (Some 0) (Some 1) default_credibility None None None None)
    NormalDistribution_str
  = Ok "<Distribution> norm(mean=0.5, sd=0.3)".
Proof.
  exact (eq_trans (interval_str_text 0 1 default_credibility eq_refl)
           eq_refl).
Defined.

(** tdist(0, 1, 2) at credibility 95 shows the credibility. *)
Lemma tdist_0_1_2_str :
  rendered (tdist (Some 0) (Some 1) 2 95 None None)
    (fun d => Ok (TDistribution_str d))
  = Ok "<Distribution> tdist(x=0.0, y=1.0, t=2.0, credibility=95.0)".
Proof.
  exact (eq_trans (interval_str_credibility 0 1 2 95 eq_refl) eq_refl).
Defined.

End MoreInstances.

(** tdist() and tdist(0, 1) return. *)
Lemma tdist_returns_none_and_0_1 :
  returns (tdist None None default_t default_credibility None None) = true
  /\ returns (tdist (Some 0) (Some 1) default_t default_credibility
                None None) = true.
Proof.
  split.
  - apply (proj2 (proj1 (tdist_returns_iff None None default_t
                           default_credibility None None))).
    left. split; reflexivity.
  - apply (proj2 (proj1 (tdist_returns_iff (Some 0) (Some 1) default_t
                           default_credibility None None))).
    right. exists 0, 1. repeat split.
Defined.

(** tdist(0, 1, 2, credibility=95.0) keeps its interval and its
    credibility. *)
Lemma approximate_interval_0_1_2 :
  exists d, tdist (Some 0) (Some 1) 2 95 None None = Ok d
            /\ Self.x d = PFloat 0 /\ Self.y d = PFloat 1
            /\ Self.t d = PFloat 2
            /\ Self.credibility d = PFloat 95
            /\ Self.mean d = PNone /\ Self.sd d = PNone.
Proof.
  exact (proj1 (approximate_interval_stored 0 1 2 95 None None eq_refl)).
Defined.

(** bernoulli(float('nan')) returns. *)
Lemma bernoulli_nan_returns :
  returns (bernoulli (PFloat PrimFloat.nan)) = true.
Proof.
  apply (proj2 (proj1 (bernoulli_returns_iff (PFloat PrimFloat.nan)))).
  exists PrimFloat.nan. repeat split.
Defined.
